(** * Conan recipes of aos_core_lib_cpp: [docker/conan/conanfile.py] and
    [docker/conan/pkcs11provider-1.0.py]

    The two recipes are Python classes deriving from Conan's [ConanFile].
    Their methods are sequences of calls into Conan (requirement
    declarations, option assignments, [self.run], the [Git] and [Meson]
    helpers).  Each such call is an _external action_: it may raise, it is
    observed in a log, and some of them change the recipe object.  The
    methods are embedded as programs of a small state/log/exception monad
    and the claims are proved about what these programs do under every
    behaviour of the external world. *)

From Stdlib Require Import Ascii String.
From stdpp Require Import base option list strings gmap.

Local Open Scope string_scope.
Local Open Scope list_scope.
Local Open Scope stdpp_scope.

(** ** Python values and exceptions *)

Inductive PyVal : Type :=
  | PyBool (b : bool)
  | PyStr (s : string)
  | PyNone.

Inductive PyExn : Type :=
  | Raised (cls : string) (msg : string).

#[global] Instance PyVal_eq_dec : EqDecision PyVal.
Proof. solve_decision. Defined.

#[global] Instance PyExn_eq_dec : EqDecision PyExn.
Proof. solve_decision. Defined.

(** ** String helpers of the Python standard library used by the recipes *)

(** [s.endswith("/")] *)
Fixpoint endswith_sep (s : string) : bool :=
  match s with
  | EmptyString => false
  | String c EmptyString => if decide (c = "/"%char) then true else false
  | String _ r => endswith_sep r
  end.

(** [b.startswith("/")] *)
Definition startswith_sep (b : string) : bool :=
  match b with
  | String c _ => if decide (c = "/"%char) then true else false
  | EmptyString => false
  end.

(** [os.path.join(a, b)] of [posixpath], for two components. *)
Definition os_path_join (a b : string) : string :=
  if startswith_sep b then b
  else if bool_decide (a = EmptyString) || endswith_sep a then a +:+ b
  else a +:+ "/" +:+ b.

(** ** The recipe object

    The part of a [ConanFile] instance the two recipes read or write. *)

Record ConanFile : Type := mkConanFile {
  recipe_folder : string;
  source_folder : string;
  settings : list string;
  generators : list string;
  options : gmap (string * string) PyVal;
  requires : list string;
  tool_requires : list string;
  build_requires : list string;
}.

(** ** External actions *)

Inductive Action : Type :=
  | Requires (ref : string)                 (* self.requires(ref) *)
  | ToolRequires (ref : string)             (* self.tool_requires(ref) *)
  | BuildRequires (ref : string)            (* self.build_requires(ref) *)
  | Run (command : string) (cwd : string)   (* self.run(command, cwd=cwd) *)
  | SetOption (pkg opt : string) (v : PyVal)(* self.options[pkg].opt = v *)
  | BasicLayout                             (* basic_layout(self) *)
  | NewGit                                  (* Git(self) *)
  | GitClone (url : string) (args : list string) (target : string)
  | GitCheckout (commit : string)
  | NewVirtualBuildEnv                      (* VirtualBuildEnv(self) *)
  | VirtualBuildEnvGenerate
  | NewPkgConfigDeps                        (* PkgConfigDeps(self) *)
  | PkgConfigDepsGenerate
  | NewMesonToolchain                       (* MesonToolchain(self) *)
  | MesonToolchainGenerate
  | NewMeson                                (* Meson(self) *)
  | MesonConfigure
  | MesonBuild
  | MesonInstall.

#[global] Instance Action_eq_dec : EqDecision Action.
Proof. solve_decision. Defined.

(** What a successful action does to the recipe object.  Declarations are
    appended to the recipe's requirement lists, an option assignment
    overwrites one entry of the option table, every other action works on
    the file system or on helper objects only. *)
Definition effect (a : Action) (s : ConanFile) : ConanFile :=
  match a with
  | Requires r =>
      mkConanFile (recipe_folder s) (source_folder s) (settings s)
        (generators s) (options s) (requires s ++ [r]) (tool_requires s)
        (build_requires s)
  | ToolRequires r =>
      mkConanFile (recipe_folder s) (source_folder s) (settings s)
        (generators s) (options s) (requires s) (tool_requires s ++ [r])
        (build_requires s)
  | BuildRequires r =>
      mkConanFile (recipe_folder s) (source_folder s) (settings s)
        (generators s) (options s) (requires s) (tool_requires s)
        (build_requires s ++ [r])
  | SetOption pkg opt v =>
      mkConanFile (recipe_folder s) (source_folder s) (settings s)
        (generators s) (<[(pkg, opt) := v]> (options s)) (requires s)
        (tool_requires s) (build_requires s)
  | _ => s
  end.

(** ** The monad of recipe methods

    The external world is an [Oracle]: given the actions performed so far
    and the action being attempted it says whether the call raises.  A
    method receives the oracle, the history and the recipe object, and
    returns the new recipe object, the actions it attempted (in order) and
    either the exception that left it or its return value. *)

Definition Oracle : Type := list Action → Action → option PyExn.

Definition Outcome (A : Type) : Type := (ConanFile * list Action * (PyExn + A))%type.

Definition M (A : Type) : Type := Oracle → list Action → ConanFile → Outcome A.

Definition state_of {A} (x : Outcome A) : ConanFile := x.1.1.
Definition actions_of {A} (x : Outcome A) : list Action := x.1.2.
Definition result_of {A} (x : Outcome A) : PyExn + A := x.2.

(** The exception, if any, that left the method. *)
Definition raised {A} (r : PyExn + A) : option PyExn :=
  match r with inl e => Some e | inr _ => None end.

Definition ret {A} (x : A) : M A := λ _ _ s, (s, [], inr x).

Definition bind {A B} (m : M A) (k : A → M B) : M B :=
  λ o h s,
    match m o h s with
    | (s1, acts1, inl e) => (s1, acts1, inl e)
    | (s1, acts1, inr x) =>
        match k x o (h ++ acts1) s1 with
        | (s2, acts2, r) => (s2, acts1 ++ acts2, r)
        end
    end.

(** Attribute read: [self.<field>]. *)
Definition get {A} (field : ConanFile → A) : M A := λ _ _ s, (s, [], inr (field s)).

(** One external call. *)
Definition call (a : Action) : M unit :=
  λ o h s,
    match o h a with
    | Some e => (s, [a], inl e)
    | None => (effect a s, [a], inr tt)
    end.

(** [try: m  except Exception: handler]. Neither recipe uses it; it is the
    construct whose absence the error-handling claims are about. *)
Definition try_except {A} (m : M A) (handler : PyExn → M A) : M A :=
  λ o h s,
    match m o h s with
    | (s1, acts1, inl e) =>
        match handler e o (h ++ acts1) s1 with
        | (s2, acts2, r) => (s2, acts1 ++ acts2, r)
        end
    | x => x
    end.

#[global] Instance M_ret : MRet M := @ret.
#[global] Instance M_bind : MBind M := λ A B k m, bind m k.

(** ** [conanfile.py] *)

Module AosCoreLibCpp.

Definition class_settings : list string := ["os"; "compiler"; "build_type"; "arch"].
Definition class_generators : list string := ["CMakeToolchain"; "CMakeDeps"].

Definition requirements : M unit :=
  call (Requires "grpc/1.54.3");;
  call (Requires "gtest/1.14.0");;
  call (Requires "libcurl/8.8.0");;
  call (Requires "openssl/3.2.1");;
  call (Requires "poco/1.13.2");;
  folder ← get recipe_folder;
  let pkcs11path := os_path_join folder "pkcs11provider-1.0.py" in
  cwd ← get recipe_folder;
  call (Run ("conan export " +:+ pkcs11path +:+ " --user user --channel stable") cwd);;
  call (Requires "pkcs11provider/1.0@user/stable").

Definition build_requirements : M unit :=
  call (ToolRequires "grpc/1.54.3");;
  call (ToolRequires "gtest/1.14.0");;
  call (ToolRequires "protobuf/3.21.12").

Definition configure : M unit :=
  call (SetOption "openssl" "no_dso" (PyBool false));;
  call (SetOption "openssl" "shared" (PyBool true)).

(** A fresh instance of the class located in [folder]. *)
Definition new (folder src : string) : ConanFile :=
  mkConanFile folder src class_settings class_generators ∅ [] [] [].

End AosCoreLibCpp.

(** ** [pkcs11provider-1.0.py] *)

Module PKCS11Provider.

Definition name : string := "pkcs11provider".
Definition branch : string := "main".
Definition revision : string := "v1.0".
Definition version : string := "1.0".
Definition class_settings : list string := ["os"; "compiler"; "build_type"; "arch"].

Definition requirements : M unit :=
  call (Requires "openssl/3.2.1").

Definition configure : M unit :=
  call (SetOption "openssl" "shared" (PyBool true)).

Definition build_requirements : M unit :=
  call (BuildRequires "meson/0.64.1").

Definition layout : M unit :=
  call BasicLayout.

Definition source : M unit :=
  call NewGit;;
  let clone_args := ["--branch"; branch] in
  target ← get source_folder;
  call (GitClone "https://github.com/latchset/pkcs11-provider.git" clone_args target);;
  call (GitCheckout revision).

Definition generate : M unit :=
  call NewVirtualBuildEnv;;
  call VirtualBuildEnvGenerate;;
  call NewPkgConfigDeps;;
  call PkgConfigDepsGenerate;;
  call NewMesonToolchain;;
  call MesonToolchainGenerate.

Definition build : M unit :=
  call NewMeson;;
  call MesonConfigure;;
  call MesonBuild.

Definition package : M unit :=
  call NewMeson;;
  call MesonInstall.

Definition new (folder src : string) : ConanFile :=
  mkConanFile folder src class_settings [] ∅ [] [] [].

End PKCS11Provider.

(** ** The methods of both classes *)

Inductive Method : Type :=
  | Aos_requirements
  | Aos_build_requirements
  | Aos_configure
  | Pkcs_requirements
  | Pkcs_configure
  | Pkcs_build_requirements
  | Pkcs_layout
  | Pkcs_source
  | Pkcs_generate
  | Pkcs_build
  | Pkcs_package.

Definition invoke (m : Method) : M unit :=
  match m with
  | Aos_requirements => AosCoreLibCpp.requirements
  | Aos_build_requirements => AosCoreLibCpp.build_requirements
  | Aos_configure => AosCoreLibCpp.configure
  | Pkcs_requirements => PKCS11Provider.requirements
  | Pkcs_configure => PKCS11Provider.configure
  | Pkcs_build_requirements => PKCS11Provider.build_requirements
  | Pkcs_layout => PKCS11Provider.layout
  | Pkcs_source => PKCS11Provider.source
  | Pkcs_generate => PKCS11Provider.generate
  | Pkcs_build => PKCS11Provider.build
  | Pkcs_package => PKCS11Provider.package
  end.

(** The world in which nothing fails. *)
Definition all_succeed : Oracle := λ _ _, None.

(** The world in which exactly the action [bad] fails, with [e]. *)
Definition fails_at (bad : Action) (e : PyExn) : Oracle :=
  λ _ a, if decide (a = bad) then Some e else None.

(** ** Straight-line scripts

    [replay] performs a fixed list of calls one after the other and stops
    at the first one that raises.  [script] lists the calls of each method
    body in program order; the only data it takes from the instance are the
    two folders. *)

Fixpoint replay (sc : list Action) : M unit :=
  match sc with
  | [] => ret tt
  | a :: rest => bind (call a) (λ _, replay rest)
  end.

Definition export_command (folder : string) : string :=
  "conan export " +:+ os_path_join folder "pkcs11provider-1.0.py"
    +:+ " --user user --channel stable".

Definition script (m : Method) (s : ConanFile) : list Action :=
  match m with
  | Aos_requirements =>
      [Requires "grpc/1.54.3"; Requires "gtest/1.14.0"; Requires "libcurl/8.8.0";
       Requires "openssl/3.2.1"; Requires "poco/1.13.2";
       Run (export_command (recipe_folder s)) (recipe_folder s);
       Requires "pkcs11provider/1.0@user/stable"]
  | Aos_build_requirements =>
      [ToolRequires "grpc/1.54.3"; ToolRequires "gtest/1.14.0";
       ToolRequires "protobuf/3.21.12"]
  | Aos_configure =>
      [SetOption "openssl" "no_dso" (PyBool false);
       SetOption "openssl" "shared" (PyBool true)]
  | Pkcs_requirements => [Requires "openssl/3.2.1"]
  | Pkcs_configure => [SetOption "openssl" "shared" (PyBool true)]
  | Pkcs_build_requirements => [BuildRequires "meson/0.64.1"]
  | Pkcs_layout => [BasicLayout]
  | Pkcs_source =>
      [NewGit;
       GitClone "https://github.com/latchset/pkcs11-provider.git"
         ["--branch"; "main"] (source_folder s);
       GitCheckout "v1.0"]
  | Pkcs_generate =>
      [NewVirtualBuildEnv; VirtualBuildEnvGenerate; NewPkgConfigDeps;
       PkgConfigDepsGenerate; NewMesonToolchain; MesonToolchainGenerate]
  | Pkcs_build => [NewMeson; MesonConfigure; MesonBuild]
  | Pkcs_package => [NewMeson; MesonInstall]
  end.

(** ** Exceptions pass through

    [faithful o h acts r]: starting from history [h], the calls [acts] were
    made in this order, every one but possibly the last returned normally,
    and [r] is the exception of the last one when it raised ([None] when
    none did).  A method whose run is faithful neither swallows nor changes
    an exception, and makes no call after one has been raised. *)

Inductive faithful (o : Oracle) : list Action → list Action → option PyExn → Prop :=
  | faithful_done h :
      faithful o h [] None
  | faithful_raise h a e :
      o h a = Some e → faithful o h [a] (Some e)
  | faithful_next h a acts r :
      o h a = None → faithful o (h ++ [a]) acts r → faithful o h (a :: acts) r.

Definition propagating {A} (m : M A) : Prop :=
  ∀ o h s, faithful o h (actions_of (m o h s)) (raised (result_of (m o h s))).

(** ** Observations on actions *)

Definition is_git_operation (a : Action) : bool :=
  match a with
  | GitClone _ _ _ | GitCheckout _ => true
  | _ => false
  end.

(** The remote a git operation talks to. *)
Definition git_remote (a : Action) : option string :=
  match a with
  | GitClone url _ _ => Some url
  | _ => None
  end.

Definition is_requires (a : Action) : option string :=
  match a with Requires r => Some r | _ => None end.

Definition is_tool_requires (a : Action) : option string :=
  match a with ToolRequires r => Some r | _ => None end.

Definition is_build_requires (a : Action) : option string :=
  match a with BuildRequires r => Some r | _ => None end.

(** The reference of a declaration of any of the three kinds. *)
Definition declared (a : Action) : option string :=
  match a with
  | Requires r | ToolRequires r | BuildRequires r => Some r
  | _ => None
  end.

(** [n in s] on Python strings. *)
Fixpoint is_infix (n s : string) : bool :=
  match s with
  | EmptyString => String.prefix n s
  | String _ r => String.prefix n s || is_infix n r
  end.

(** Every string a call is given. *)
Definition strings_of (a : Action) : list string :=
  match a with
  | Requires r | ToolRequires r | BuildRequires r => [r]
  | Run cmd cwd => [cmd; cwd]
  | SetOption pkg opt v =>
      pkg :: opt :: match v with PyStr x => [x] | _ => [] end
  | GitClone url args target => url :: args ++ [target]
  | GitCheckout commit => [commit]
  | _ => []
  end.

(** An action names [needle] when one of the strings it is given contains
    it. *)
Definition mentions (needle : string) (a : Action) : bool :=
  existsb (is_infix needle) (strings_of a).

Definition is_run (a : Action) : bool :=
  match a with Run _ _ => true | _ => false end.

(** ** Conan references and command lines

    Modelled from Conan's documentation, not from this repository: a
    reference is written [name/version] or [name/version@user/channel]; a
    version range is written in square brackets and a pinned version is a
    dotted sequence of numbers; a command line is a sequence of
    blank-separated words and the value of a flag is the word after its last
    occurrence. *)

Record Reference : Type := mkReference {
  ref_name : string;
  ref_version : string;
  ref_user : option string;
  ref_channel : option string;
}.

(** Cut [s] at the first occurrence of [c]. *)
Fixpoint split_at (c : ascii) (s : string) : option (string * string) :=
  match s with
  | EmptyString => None
  | String d r =>
      if decide (d = c) then Some (EmptyString, r)
      else match split_at c r with
           | Some (a, b) => Some (String d a, b)
           | None => None
           end
  end.

Definition parse_reference (r : string) : option Reference :=
  match split_at "/" r with
  | None => None
  | Some (n, rest) =>
      match split_at "@" rest with
      | None => Some (mkReference n rest None None)
      | Some (v, uc) =>
          match split_at "/" uc with
          | None => None
          | Some (u, c) => Some (mkReference n v (Some u) (Some c))
          end
      end
  end.

Definition is_digit (c : ascii) : bool :=
  (48 <=? nat_of_ascii c)%nat && (nat_of_ascii c <=? 57)%nat.

Fixpoint all_digits (s : string) : bool :=
  match s with
  | EmptyString => true
  | String c r => is_digit c && all_digits r
  end.

Fixpoint split_on (c : ascii) (s : string) : list string :=
  match s with
  | EmptyString => [EmptyString]
  | String d r =>
      if decide (d = c) then EmptyString :: split_on c r
      else match split_on c r with
           | [] => [String d EmptyString]
           | w :: ws => String d w :: ws
           end
  end.

(** A pinned version: one or more non-empty numbers separated by dots. *)
Definition pinned_version (v : string) : bool :=
  forallb (λ part, negb (bool_decide (part = EmptyString)) && all_digits part) (split_on "." v).

Definition pinned (r : string) : bool :=
  match parse_reference r with
  | Some ref => pinned_version (ref_version ref)
  | None => false
  end.

Definition words (s : string) : list string :=
  filter (λ w, w ≠ EmptyString) (split_on " " s).

Fixpoint flag_value (flag : string) (ws : list string) : option string :=
  match ws with
  | [] => None
  | w :: rest =>
      match flag_value flag rest with
      | Some v => Some v
      | None => if decide (w = flag) then head rest else None
      end
  end.

(** [" " in s] *)
Fixpoint has_blank (s : string) : bool :=
  match s with
  | EmptyString => false
  | String c r => if decide (c = " "%char) then true else has_blank r
  end.

(** The methods Conan calls to lay out, fetch, build and package the
    sources, as opposed to those that declare requirements and options. *)
Definition build_phase (m : Method) : bool :=
  match m with
  | Pkcs_layout | Pkcs_source | Pkcs_generate | Pkcs_build | Pkcs_package => true
  | _ => false
  end.

(** * Sanity checks on concrete runs *)

Example source_runs :
  actions_of (PKCS11Provider.source all_succeed [] (PKCS11Provider.new "/r" "/r/src"))
  = [NewGit;
     GitClone "https://github.com/latchset/pkcs11-provider.git" ["--branch"; "main"] "/r/src";
     GitCheckout "v1.0"].
Proof. reflexivity. Qed.

Example requirements_runs :
  actions_of (AosCoreLibCpp.requirements all_succeed [] (AosCoreLibCpp.new "/r" "/r/src"))
  = [Requires "grpc/1.54.3"; Requires "gtest/1.14.0"; Requires "libcurl/8.8.0";
     Requires "openssl/3.2.1"; Requires "poco/1.13.2";
     Run "conan export /r/pkcs11provider-1.0.py --user user --channel stable" "/r";
     Requires "pkcs11provider/1.0@user/stable"].
Proof. reflexivity. Qed.

Example requirements_export_fails :
  let e := Raised "ConanException" "export failed" in
  let bad := Run "conan export /r/pkcs11provider-1.0.py --user user --channel stable" "/r" in
  let out := AosCoreLibCpp.requirements (fails_at bad e) [] (AosCoreLibCpp.new "/r" "/r/src") in
  result_of out = inl e ∧ last (actions_of out) = Some bad ∧
  requires (state_of out) =
    ["grpc/1.54.3"; "gtest/1.14.0"; "libcurl/8.8.0"; "openssl/3.2.1"; "poco/1.13.2"].
Proof. vm_compute. auto. Qed.

Example join_examples :
  os_path_join "/r" "x.py" = "/r/x.py" ∧ os_path_join "/r/" "x.py" = "/r/x.py" ∧
  os_path_join EmptyString "x.py" = "x.py" ∧ os_path_join "/r" "/abs.py" = "/abs.py".
Proof. vm_compute. auto. Qed.

Example parse_examples :
  parse_reference "pkcs11provider/1.0@user/stable"
    = Some (mkReference "pkcs11provider" "1.0" (Some "user") (Some "stable")) ∧
  parse_reference "grpc/1.54.3" = Some (mkReference "grpc" "1.54.3" None None) ∧
  pinned "grpc/1.54.3" = true ∧ pinned "grpc/[>=1.54 <2]" = false ∧
  pinned "grpc/1.54.x" = false ∧ pinned "grpc/" = false ∧ pinned "grpc/1..2" = false.
Proof. vm_compute. auto 10. Qed.

Example words_examples :
  words "conan export /r/p.py --user user --channel stable"
    = ["conan"; "export"; "/r/p.py"; "--user"; "user"; "--channel"; "stable"] ∧
  flag_value "--user" (words "conan export /r --user evil/p.py --user user --channel stable")
    = Some "user".
Proof. vm_compute. auto. Qed.

(** * Straight-line programs *)

Section Replay.

Context (o : Oracle).

Lemma replay_cons_raise a rest h s e :
  o h a = Some e → replay (a :: rest) o h s = (s, [a], inl e).
Proof. intros Ho. cbn. unfold bind, call. by rewrite Ho. Qed.

Lemma replay_cons_ok a rest h s :
  o h a = None →
  replay (a :: rest) o h s =
    (state_of (replay rest o (h ++ [a]) (effect a s)),
     a :: actions_of (replay rest o (h ++ [a]) (effect a s)),
     result_of (replay rest o (h ++ [a]) (effect a s))).
Proof.
  intros Ho. cbn. unfold bind, call. rewrite Ho.
  by destruct (replay rest o (h ++ [a]) (effect a s)) as [[s2 acts2] r].
Qed.

Lemma replay_prefix sc h s : actions_of (replay sc o h s) `prefix_of` sc.
Proof.
  revert h s. induction sc as [|a rest IH]; intros h s.
  - by exists [].
  - destruct (o h a) as [e|] eqn:Ho.
    + rewrite (replay_cons_raise _ _ _ _ _ Ho). cbn. by exists rest.
    + rewrite (replay_cons_ok _ _ _ _ Ho). cbn. by apply prefix_cons.
Qed.

Lemma replay_success sc h s :
  result_of (replay sc o h s) = inr tt →
  actions_of (replay sc o h s) = sc ∧
  state_of (replay sc o h s) = foldl (λ st a, effect a st) s sc.
Proof.
  revert h s. induction sc as [|a rest IH]; intros h s.
  - done.
  - destruct (o h a) as [e|] eqn:Ho.
    + by rewrite (replay_cons_raise _ _ _ _ _ Ho).
    + rewrite (replay_cons_ok _ _ _ _ Ho). cbn. intros Hr.
      destruct (IH _ _ Hr) as [-> ->]. done.
Qed.

Lemma replay_faithful sc h s :
  faithful o h (actions_of (replay sc o h s)) (raised (result_of (replay sc o h s))).
Proof.
  revert h s. induction sc as [|a rest IH]; intros h s.
  - constructor.
  - destruct (o h a) as [e|] eqn:Ho.
    + rewrite (replay_cons_raise _ _ _ _ _ Ho). by constructor.
    + rewrite (replay_cons_ok _ _ _ _ Ho). cbn. by constructor.
Qed.

(** A run that raised stopped at the raising call; a run that returned saw
    no call raise. *)
Lemma faithful_raised h acts e :
  faithful o h acts (Some e) →
  ∃ pre a, acts = pre ++ [a] ∧ o (h ++ pre) a = Some e ∧
    ∀ p b q, pre = p ++ b :: q → o (h ++ p) b = None.
Proof.
  intros Hf. remember (Some e) as r eqn:Er.
  induction Hf as [h|h a e' Ho|h a acts r Ho Hf IH].
  - discriminate.
  - injection Er as ->. exists [], a. rewrite app_nil_r. split_and!; [done..|].
    intros [|??] ???; discriminate.
  - destruct (IH Er) as (pre & b & -> & Hb & Hpre).
    exists (a :: pre), b. rewrite <-(assoc_L (++)) in Hb. split_and!; [done..|].
    intros [|c p] d q Heq; simplify_eq/=.
    + by rewrite app_nil_r.
    + rewrite cons_middle, (assoc_L (++)). by eapply Hpre.
Qed.

Lemma faithful_returned h acts :
  faithful o h acts None →
  ∀ p b q, acts = p ++ b :: q → o (h ++ p) b = None.
Proof.
  intros Hf. remember None as r eqn:Er.
  induction Hf as [h|h a e' Ho|h a acts r Ho Hf IH].
  - intros [|??] ???; discriminate.
  - discriminate.
  - intros [|c p] d q Heq; simplify_eq/=.
    + by rewrite app_nil_r.
    + rewrite cons_middle, (assoc_L (++)). by eapply IH.
Qed.

End Replay.

(** Every method body is the replay of its script. *)
Lemma invoke_script m o h s : invoke m o h s = replay (script m s) o h s.
Proof.
  destruct m; cbn;
    unfold AosCoreLibCpp.requirements, AosCoreLibCpp.build_requirements,
      AosCoreLibCpp.configure, PKCS11Provider.requirements,
      PKCS11Provider.configure, PKCS11Provider.build_requirements,
      PKCS11Provider.layout, PKCS11Provider.source, PKCS11Provider.generate,
      PKCS11Provider.build, PKCS11Provider.package, PKCS11Provider.branch,
      PKCS11Provider.revision, export_command,
      mbind, M_bind, bind, call, get, ret; cbn;
    repeat (rewrite ?app_nil_r;
            match goal with
            | |- context [o ?h' ?a] => destruct (o h' a) eqn:?; cbn
            end); reflexivity.
Qed.

(** * Helper facts on prefixes *)

Lemma prefix_omap {A B} (f : A → option B) (l k : list A) :
  l `prefix_of` k → omap f l `prefix_of` omap f k.
Proof. intros [t ->]. rewrite omap_app. by eexists. Qed.

Lemma prefix_filter_bool {A} (f : A → bool) (l k : list A) :
  l `prefix_of` k →
  filter (λ a, f a = true) l `prefix_of` filter (λ a, f a = true) k.
Proof. intros [t ->]. rewrite filter_app. by eexists. Qed.

Lemma prefix_Forall {A} (P : A → Prop) (l k : list A) :
  l `prefix_of` k → Forall P k → Forall P l.
Proof. intros [t ->] HF. by apply Forall_app in HF as [? _]. Qed.

Lemma prefix_NoDup {A} (l k : list A) :
  l `prefix_of` k → NoDup k → NoDup l.
Proof. intros [t ->] HN. by apply NoDup_app in HN as [? _]. Qed.

(** Symbolic execution of a method body: case analysis on what the world
    answers to each call in turn. *)
Ltac run_method o :=
  unfold AosCoreLibCpp.requirements, AosCoreLibCpp.build_requirements,
    AosCoreLibCpp.configure, PKCS11Provider.requirements,
    PKCS11Provider.configure, PKCS11Provider.build_requirements,
    PKCS11Provider.layout, PKCS11Provider.source, PKCS11Provider.generate,
    PKCS11Provider.build, PKCS11Provider.package, PKCS11Provider.branch,
    PKCS11Provider.revision, mbind, M_bind, bind, call, get, ret; cbn;
  repeat (rewrite ?app_nil_r;
          match goal with
          | |- context [o ?h' ?a] => destruct (o h' a) eqn:?; cbn
          end).

(** * [PKCS11Provider.source] *)

(** C1: [source()] talks to one remote only, the pkcs11-provider repository
    on GitHub.  In every world the calls it makes are an initial segment of:
    create the [Git] helper, clone that repository with [--branch main] into
    the source folder, check out [v1.0]; the remotes contacted are an
    initial segment of that single URL; and when no call raises all three
    calls are made, in this order and with nothing else. *)
Theorem source_clones_then_checks_out (o : Oracle) (h : list Action) (s : ConanFile) :
  actions_of (PKCS11Provider.source o h s) `prefix_of`
    [NewGit;
     GitClone "https://github.com/latchset/pkcs11-provider.git"
       ["--branch"; "main"] (source_folder s);
     GitCheckout "v1.0"] ∧
  omap git_remote (actions_of (PKCS11Provider.source o h s)) `prefix_of`
    ["https://github.com/latchset/pkcs11-provider.git"] ∧
  (result_of (PKCS11Provider.source o h s) = inr tt →
   actions_of (PKCS11Provider.source o h s) =
     [NewGit;
      GitClone "https://github.com/latchset/pkcs11-provider.git"
        ["--branch"; "main"] (source_folder s);
      GitCheckout "v1.0"] ∧
   filter (λ a, is_git_operation a = true) (actions_of (PKCS11Provider.source o h s)) =
     [GitClone "https://github.com/latchset/pkcs11-provider.git"
        ["--branch"; "main"] (source_folder s);
      GitCheckout "v1.0"]).
Proof.
  change (PKCS11Provider.source o h s) with (invoke Pkcs_source o h s).
  rewrite invoke_script.
  pose proof (replay_prefix o (script Pkcs_source s) h s) as Hp.
  split_and!.
  - exact Hp.
  - apply (prefix_omap git_remote) in Hp. exact Hp.
  - intros Hr. apply replay_success in Hr as [-> _]. done.
Qed.

Lemma source_clones_then_checks_out_witness :
  result_of (PKCS11Provider.source all_succeed []
               (PKCS11Provider.new "/conan/p" "/conan/p/src")) = inr tt ∧
  actions_of (PKCS11Provider.source all_succeed []
                (PKCS11Provider.new "/conan/p" "/conan/p/src")) =
    [NewGit;
     GitClone "https://github.com/latchset/pkcs11-provider.git"
       ["--branch"; "main"] "/conan/p/src";
     GitCheckout "v1.0"].
Proof.
  split; [reflexivity|].
  apply (source_clones_then_checks_out all_succeed []
           (PKCS11Provider.new "/conan/p" "/conan/p/src")).
  reflexivity.
Defined.

(** * [AosCoreLibCpp.requirements] and [build_requirements] *)

(** C2: in every world the requirements [requirements()] declares are an
    initial segment of grpc/1.54.3, gtest/1.14.0, libcurl/8.8.0,
    openssl/3.2.1, poco/1.13.2, pkcs11provider/1.0@user/stable and it
    declares no tool requirement and no build requirement; the tool
    requirements [build_requirements()] declares are an initial segment of
    grpc/1.54.3, gtest/1.14.0, protobuf/3.21.12 and it declares no
    requirement and no build requirement.  When the method returns, exactly
    these have been added to the recipe, in this order, and the other lists
    are what they were.  Every reference declared by either method, of
    whatever kind and in whatever world, carries a pinned version. *)
Theorem declared_requirements_are_pinned (o : Oracle) (h : list Action) (s : ConanFile) :
  let reqs := ["grpc/1.54.3"; "gtest/1.14.0"; "libcurl/8.8.0"; "openssl/3.2.1";
               "poco/1.13.2"; "pkcs11provider/1.0@user/stable"] in
  let tools := ["grpc/1.54.3"; "gtest/1.14.0"; "protobuf/3.21.12"] in
  (omap is_requires (actions_of (AosCoreLibCpp.requirements o h s)) `prefix_of` reqs ∧
   omap is_tool_requires (actions_of (AosCoreLibCpp.requirements o h s)) = [] ∧
   omap is_build_requires (actions_of (AosCoreLibCpp.requirements o h s)) = []) ∧
  (omap is_tool_requires (actions_of (AosCoreLibCpp.build_requirements o h s))
     `prefix_of` tools ∧
   omap is_requires (actions_of (AosCoreLibCpp.build_requirements o h s)) = [] ∧
   omap is_build_requires (actions_of (AosCoreLibCpp.build_requirements o h s)) = []) ∧
  (result_of (AosCoreLibCpp.requirements o h s) = inr tt →
   requires (state_of (AosCoreLibCpp.requirements o h s)) = requires s ++ reqs ∧
   tool_requires (state_of (AosCoreLibCpp.requirements o h s)) = tool_requires s ∧
   build_requires (state_of (AosCoreLibCpp.requirements o h s)) = build_requires s) ∧
  (result_of (AosCoreLibCpp.build_requirements o h s) = inr tt →
   tool_requires (state_of (AosCoreLibCpp.build_requirements o h s))
     = tool_requires s ++ tools ∧
   requires (state_of (AosCoreLibCpp.build_requirements o h s)) = requires s ∧
   build_requires (state_of (AosCoreLibCpp.build_requirements o h s))
     = build_requires s) ∧
  Forall (λ a, ∀ r, declared a = Some r → pinned r = true)
    (actions_of (AosCoreLibCpp.requirements o h s) ++
     actions_of (AosCoreLibCpp.build_requirements o h s)) ∧
  Forall (λ r, pinned r = true) (reqs ++ tools).
Proof.
  intros reqs tools. split_and!.
  - change (AosCoreLibCpp.requirements o h s) with (invoke Aos_requirements o h s).
    rewrite invoke_script.
    exact (prefix_omap is_requires _ _ (replay_prefix o (script Aos_requirements s) h s)).
  - run_method o; reflexivity.
  - run_method o; reflexivity.
  - change (AosCoreLibCpp.build_requirements o h s)
      with (invoke Aos_build_requirements o h s).
    rewrite invoke_script.
    exact (prefix_omap is_tool_requires _ _
             (replay_prefix o (script Aos_build_requirements s) h s)).
  - run_method o; reflexivity.
  - run_method o; reflexivity.
  - change (AosCoreLibCpp.requirements o h s) with (invoke Aos_requirements o h s).
    rewrite invoke_script. intros Hr.
    apply replay_success in Hr as [_ ->]. cbn.
    by rewrite <-!(assoc_L (++)).
  - change (AosCoreLibCpp.build_requirements o h s)
      with (invoke Aos_build_requirements o h s).
    rewrite invoke_script. intros Hr.
    apply replay_success in Hr as [_ ->]. cbn.
    by rewrite <-!(assoc_L (++)).
  - apply Forall_app. split.
    + change (AosCoreLibCpp.requirements o h s) with (invoke Aos_requirements o h s).
      rewrite invoke_script.
      apply (prefix_Forall _ _ _ (replay_prefix o (script Aos_requirements s) h s)).
      unfold script.
      repeat (apply Forall_cons; split;
              [intros r Hr; cbn in Hr; simplify_eq; reflexivity|]).
      apply Forall_nil_2.
    + change (AosCoreLibCpp.build_requirements o h s)
        with (invoke Aos_build_requirements o h s).
      rewrite invoke_script.
      apply (prefix_Forall _ _ _
               (replay_prefix o (script Aos_build_requirements s) h s)).
      unfold script.
      repeat (apply Forall_cons; split;
              [intros r Hr; cbn in Hr; simplify_eq; reflexivity|]).
      apply Forall_nil_2.
  - repeat constructor.
Qed.

Lemma declared_requirements_are_pinned_witness :
  result_of (AosCoreLibCpp.requirements all_succeed []
               (AosCoreLibCpp.new "/conan" "/conan/src")) = inr tt ∧
  result_of (AosCoreLibCpp.build_requirements all_succeed []
               (AosCoreLibCpp.new "/conan" "/conan/src")) = inr tt ∧
  requires (state_of (AosCoreLibCpp.requirements all_succeed []
                        (AosCoreLibCpp.new "/conan" "/conan/src"))) =
    ["grpc/1.54.3"; "gtest/1.14.0"; "libcurl/8.8.0"; "openssl/3.2.1";
     "poco/1.13.2"; "pkcs11provider/1.0@user/stable"] ∧
  tool_requires (state_of (AosCoreLibCpp.build_requirements all_succeed []
                             (AosCoreLibCpp.new "/conan" "/conan/src"))) =
    ["grpc/1.54.3"; "gtest/1.14.0"; "protobuf/3.21.12"] ∧
  build_requires (state_of (AosCoreLibCpp.requirements all_succeed []
                              (AosCoreLibCpp.new "/conan" "/conan/src"))) = [] ∧
  build_requires (state_of (AosCoreLibCpp.build_requirements all_succeed []
                              (AosCoreLibCpp.new "/conan" "/conan/src"))) = [].
Proof.
  pose proof (declared_requirements_are_pinned all_succeed []
                (AosCoreLibCpp.new "/conan" "/conan/src")) as (_ & _ & Hq & Ht & _).
  destruct (Hq eq_refl) as (Hq1 & _ & Hq3).
  destruct (Ht eq_refl) as (Ht1 & _ & Ht3).
  split_and!; [reflexivity | reflexivity | exact Hq1 | exact Ht1 | exact Hq3 | exact Ht3].
Defined.

(** * The link between the two recipes *)

Lemma string_app_assoc (a b c : string) : (a +:+ b) +:+ c = a +:+ (b +:+ c).
Proof.
  induction a as [|x a IH]; [reflexivity|].
  change (String x ((a +:+ b) +:+ c) = String x (a +:+ b +:+ c)).
  by rewrite IH.
Qed.

Lemma is_infix_app_l (n a s : string) :
  is_infix n s = true → is_infix n (a +:+ s) = true.
Proof.
  intros Hs. induction a as [|x a IH]; [exact Hs|].
  change (is_infix n (String x (a +:+ s)) = true).
  cbn [is_infix]. rewrite IH. apply orb_true_r.
Qed.

Lemma export_command_mentions (folder : string) :
  is_infix "pkcs11provider" (export_command folder) = true.
Proof.
  unfold export_command, os_path_join.
  change (startswith_sep "pkcs11provider-1.0.py") with false. cbv iota.
  apply (is_infix_app_l _ "conan export ").
  destruct (bool_decide (folder = EmptyString) || endswith_sep folder);
    rewrite !string_app_assoc; apply is_infix_app_l.
  - reflexivity.
  - reflexivity.
Qed.

(** C3: the only link between the two recipe files is the nested recipe
    declaration in [AosCoreLibCpp.requirements()].  In every world, the
    calls of that method which are given a string naming the pkcs11provider
    recipe are an initial segment of: run [conan export
    <recipe_folder>/pkcs11provider-1.0.py --user user --channel stable] with
    the recipe folder as working directory, then require
    [pkcs11provider/1.0@user/stable]; that command is the only one the
    method runs; both calls are made when the method returns.  No other
    method of either class runs a command, and no string given to any call
    of any other method (a requirement reference, an option's package, name
    or value, a git URL, argument or revision) contains "pkcs11provider" or
    "conanfile"; the one string of those calls that is not written in the
    recipe is the clone target, which is the instance's own source
    folder. *)
Theorem nested_recipe_declaration (o : Oracle) (h : list Action) (s : ConanFile) :
  let export :=
    Run ("conan export " +:+ os_path_join (recipe_folder s) "pkcs11provider-1.0.py"
           +:+ " --user user --channel stable") (recipe_folder s) in
  filter (λ a, mentions "pkcs11provider" a = true)
    (actions_of (AosCoreLibCpp.requirements o h s))
    `prefix_of` [export; Requires "pkcs11provider/1.0@user/stable"] ∧
  filter (λ a, is_run a = true) (actions_of (AosCoreLibCpp.requirements o h s))
    `prefix_of` [export] ∧
  (result_of (AosCoreLibCpp.requirements o h s) = inr tt →
   filter (λ a, mentions "pkcs11provider" a = true)
     (actions_of (AosCoreLibCpp.requirements o h s))
   = [export; Requires "pkcs11provider/1.0@user/stable"]) ∧
  (∀ m, m ≠ Aos_requirements →
     Forall (λ a, is_run a = false ∧
                  Forall (λ x, (is_git_operation a = true ∧ x = source_folder s) ∨
                               (is_infix "pkcs11provider" x = false ∧
                                is_infix "conanfile" x = false))
                    (strings_of a))
       (actions_of (invoke m o h s))).
Proof.
  intros export.
  assert (filter (λ a, mentions "pkcs11provider" a = true) (script Aos_requirements s)
          = [export; Requires "pkcs11provider/1.0@user/stable"]) as Hfilter.
  { unfold script.
    do 5 (rewrite filter_cons_False by (cbn; done)).
    rewrite filter_cons_True
      by (apply orb_true_intro; left; apply export_command_mentions).
    rewrite filter_cons_True by reflexivity. done. }
  change (AosCoreLibCpp.requirements o h s) with (invoke Aos_requirements o h s).
  rewrite invoke_script.
  pose proof (replay_prefix o (script Aos_requirements s) h s) as Hp.
  split_and!.
  - rewrite <-Hfilter. by apply prefix_filter_bool.
  - exact (prefix_filter_bool is_run _ _ Hp).
  - intros Hr. apply replay_success in Hr as [-> _]. exact Hfilter.
  - intros m Hm. rewrite invoke_script.
    apply (prefix_Forall _ _ _ (replay_prefix o (script m s) h s)).
    destruct m; [done|..]; unfold script;
      repeat (apply Forall_cons; split;
              [split; [reflexivity|];
               cbn [strings_of app];
               repeat (apply Forall_cons; split;
                       [first [right; split; reflexivity | left; split; reflexivity]|]);
               apply Forall_nil_2|]);
      apply Forall_nil_2.
Qed.

Lemma nested_recipe_declaration_witness :
  result_of (AosCoreLibCpp.requirements all_succeed []
               (AosCoreLibCpp.new "/conan" "/conan/src")) = inr tt ∧
  Pkcs_source ≠ Aos_requirements ∧
  filter (λ a, mentions "pkcs11provider" a = true)
    (actions_of (AosCoreLibCpp.requirements all_succeed []
                   (AosCoreLibCpp.new "/conan" "/conan/src")))
  = [Run "conan export /conan/pkcs11provider-1.0.py --user user --channel stable" "/conan";
     Requires "pkcs11provider/1.0@user/stable"] ∧
  Forall (λ a, is_run a = false ∧
               Forall (λ x, (is_git_operation a = true ∧ x = "/conan/src") ∨
                            (is_infix "pkcs11provider" x = false ∧
                             is_infix "conanfile" x = false))
                 (strings_of a))
    (actions_of (invoke Pkcs_source all_succeed []
                   (AosCoreLibCpp.new "/conan" "/conan/src"))).
Proof.
  pose proof (nested_recipe_declaration all_succeed []
                (AosCoreLibCpp.new "/conan" "/conan/src")) as (_ & _ & Hs & Hm).
  split_and!; [reflexivity | discriminate | |].
  - exact (Hs eq_refl).
  - apply Hm. discriminate.
Defined.

(** * [AosCoreLibCpp.configure] *)

(** C4: [configure()] assigns two options of openssl and touches nothing
    else.  In every world its calls are an initial segment of
    [options["openssl"].no_dso = False], [options["openssl"].shared = True],
    and the settings, generators and the three requirement lists of the
    recipe are left as they were; when the method returns, the option table
    is the old one with ("openssl", "no_dso") set to [False] and
    ("openssl", "shared") set to [True]. *)
Theorem configure_sets_two_options (o : Oracle) (h : list Action) (s : ConanFile) :
  actions_of (AosCoreLibCpp.configure o h s) `prefix_of`
    [SetOption "openssl" "no_dso" (PyBool false);
     SetOption "openssl" "shared" (PyBool true)] ∧
  settings (state_of (AosCoreLibCpp.configure o h s)) = settings s ∧
  generators (state_of (AosCoreLibCpp.configure o h s)) = generators s ∧
  requires (state_of (AosCoreLibCpp.configure o h s)) = requires s ∧
  tool_requires (state_of (AosCoreLibCpp.configure o h s)) = tool_requires s ∧
  build_requires (state_of (AosCoreLibCpp.configure o h s)) = build_requires s ∧
  (result_of (AosCoreLibCpp.configure o h s) = inr tt →
   actions_of (AosCoreLibCpp.configure o h s) =
     [SetOption "openssl" "no_dso" (PyBool false);
      SetOption "openssl" "shared" (PyBool true)] ∧
   options (state_of (AosCoreLibCpp.configure o h s)) =
     <[("openssl", "shared") := PyBool true]>
       (<[("openssl", "no_dso") := PyBool false]> (options s))).
Proof.
  split_and!.
  - change (AosCoreLibCpp.configure o h s) with (invoke Aos_configure o h s).
    rewrite invoke_script. apply (replay_prefix o (script Aos_configure s)).
  - run_method o; reflexivity.
  - run_method o; reflexivity.
  - run_method o; reflexivity.
  - run_method o; reflexivity.
  - run_method o; reflexivity.
  - run_method o; intros Hr; try discriminate Hr. done.
Qed.

Lemma configure_sets_two_options_witness :
  result_of (AosCoreLibCpp.configure all_succeed []
               (AosCoreLibCpp.new "/conan" "/conan/src")) = inr tt ∧
  options (state_of (AosCoreLibCpp.configure all_succeed []
                       (AosCoreLibCpp.new "/conan" "/conan/src")))
    !! ("openssl", "no_dso") = Some (PyBool false) ∧
  options (state_of (AosCoreLibCpp.configure all_succeed []
                       (AosCoreLibCpp.new "/conan" "/conan/src")))
    !! ("openssl", "shared") = Some (PyBool true).
Proof.
  pose proof (configure_sets_two_options all_succeed []
                (AosCoreLibCpp.new "/conan" "/conan/src")) as (_ & _ & _ & _ & _ & _ & Hs).
  destruct (Hs eq_refl) as [_ ->].
  split_and!; [reflexivity | | ].
  - rewrite lookup_insert_ne by done. apply lookup_insert_eq.
  - apply lookup_insert_eq.
Defined.

(** * [PKCS11Provider.build] and [PKCS11Provider.package] *)

(** C5: the cloned project is built and installed through Meson's standard
    calls only.  In every world the calls of [build()] are an initial
    segment of: create the [Meson] helper, [configure()], [build()]; the
    calls of [package()] are an initial segment of: create the [Meson]
    helper, [install()]; when the method returns all of them were made, in
    this order and with nothing else.  Neither method changes the recipe
    object, and none of [source()], [build()], [package()] runs a command of
    its own. *)
Theorem built_and_installed_by_meson (o : Oracle) (h : list Action) (s : ConanFile) :
  actions_of (PKCS11Provider.build o h s) `prefix_of`
    [NewMeson; MesonConfigure; MesonBuild] ∧
  actions_of (PKCS11Provider.package o h s) `prefix_of` [NewMeson; MesonInstall] ∧
  state_of (PKCS11Provider.build o h s) = s ∧
  state_of (PKCS11Provider.package o h s) = s ∧
  Forall (λ a, is_run a = false)
    (actions_of (PKCS11Provider.source o h s) ++
     actions_of (PKCS11Provider.build o h s) ++
     actions_of (PKCS11Provider.package o h s)) ∧
  (result_of (PKCS11Provider.build o h s) = inr tt →
   actions_of (PKCS11Provider.build o h s) = [NewMeson; MesonConfigure; MesonBuild]) ∧
  (result_of (PKCS11Provider.package o h s) = inr tt →
   actions_of (PKCS11Provider.package o h s) = [NewMeson; MesonInstall]).
Proof.
  split_and!.
  - change (PKCS11Provider.build o h s) with (invoke Pkcs_build o h s).
    rewrite invoke_script. apply (replay_prefix o (script Pkcs_build s)).
  - change (PKCS11Provider.package o h s) with (invoke Pkcs_package o h s).
    rewrite invoke_script. apply (replay_prefix o (script Pkcs_package s)).
  - run_method o; reflexivity.
  - run_method o; reflexivity.
  - rewrite !Forall_app. split_and!.
    + change (PKCS11Provider.source o h s) with (invoke Pkcs_source o h s).
      rewrite invoke_script.
      apply (prefix_Forall _ _ _ (replay_prefix o (script Pkcs_source s) h s)).
      repeat constructor.
    + change (PKCS11Provider.build o h s) with (invoke Pkcs_build o h s).
      rewrite invoke_script.
      apply (prefix_Forall _ _ _ (replay_prefix o (script Pkcs_build s) h s)).
      repeat constructor.
    + change (PKCS11Provider.package o h s) with (invoke Pkcs_package o h s).
      rewrite invoke_script.
      apply (prefix_Forall _ _ _ (replay_prefix o (script Pkcs_package s) h s)).
      repeat constructor.
  - change (PKCS11Provider.build o h s) with (invoke Pkcs_build o h s).
    rewrite invoke_script. intros Hr. by apply replay_success in Hr as [-> _].
  - change (PKCS11Provider.package o h s) with (invoke Pkcs_package o h s).
    rewrite invoke_script. intros Hr. by apply replay_success in Hr as [-> _].
Qed.

Lemma built_and_installed_by_meson_witness :
  result_of (PKCS11Provider.build all_succeed []
               (PKCS11Provider.new "/conan/p" "/conan/p/src")) = inr tt ∧
  result_of (PKCS11Provider.package all_succeed []
               (PKCS11Provider.new "/conan/p" "/conan/p/src")) = inr tt ∧
  actions_of (PKCS11Provider.build all_succeed []
                (PKCS11Provider.new "/conan/p" "/conan/p/src"))
    = [NewMeson; MesonConfigure; MesonBuild] ∧
  actions_of (PKCS11Provider.package all_succeed []
                (PKCS11Provider.new "/conan/p" "/conan/p/src"))
    = [NewMeson; MesonInstall].
Proof.
  pose proof (built_and_installed_by_meson all_succeed []
                (PKCS11Provider.new "/conan/p" "/conan/p/src"))
    as (_ & _ & _ & _ & _ & Hb & Hp).
  split_and!; [reflexivity | reflexivity | exact (Hb eq_refl) | exact (Hp eq_refl)].
Defined.

(** * Failures *)

Lemma invoke_propagating (m : Method) : propagating (invoke m).
Proof. intros o h s. rewrite invoke_script. apply replay_faithful. Qed.

(** A handler around a call is what the recipes do not have: with it, a
    run can return normally although a call raised. *)
Lemma try_except_not_propagating :
  ¬ propagating (try_except (call NewGit) (λ _, ret tt)).
Proof.
  intros Hp.
  specialize (Hp (fails_at NewGit (Raised "ConanException" "git"))
                [] (PKCS11Provider.new "/conan/p" "/conan/p/src")).
  vm_compute in Hp. inversion Hp as [| |h' a acts r Ho Hrest]; subst.
  vm_compute in Ho. discriminate Ho.
Qed.

(** C6: no method of either recipe handles an error.  For every method and
    every world: if the method raises [e], then [e] is the very exception
    raised by the last call the method made, every earlier call had returned
    normally, and no call was made after it (nothing caught, transformed or
    retried); if the method returns, none of its calls raised (nothing
    swallowed). *)
Theorem exceptions_propagate_unchanged (m : Method) (o : Oracle) (h : list Action)
    (s : ConanFile) :
  match result_of (invoke m o h s) with
  | inl e =>
      ∃ pre a,
        actions_of (invoke m o h s) = pre ++ [a] ∧
        o (h ++ pre) a = Some e ∧
        ∀ p b q, pre = p ++ b :: q → o (h ++ p) b = None
  | inr _ =>
      ∀ p b q, actions_of (invoke m o h s) = p ++ b :: q → o (h ++ p) b = None
  end.
Proof.
  pose proof (invoke_propagating m o h s) as Hf.
  destruct (result_of (invoke m o h s)) as [e|[]]; cbn in Hf.
  - by apply faithful_raised.
  - by apply faithful_returned.
Qed.

(** * Single shot *)

Lemma script_NoDup (m : Method) (s : ConanFile) : NoDup (script m s).
Proof.
  destruct m; cbn;
    repeat (apply NoDup_cons; split;
            [rewrite ?elem_of_cons, elem_of_nil; intuition congruence|]);
    apply NoDup_nil_2.
Qed.

(** C7: within one invocation of any method of either recipe, in every
    world, no external call is made twice: the list of calls of the
    invocation has no duplicate. *)
Theorem every_action_at_most_once (m : Method) (o : Oracle) (h : list Action)
    (s : ConanFile) :
  NoDup (actions_of (invoke m o h s)).
Proof.
  rewrite invoke_script.
  apply (prefix_NoDup _ _ (replay_prefix o (script m s) h s)).
  apply script_NoDup.
Qed.

(** * Termination *)

(** C8: every method is straight-line: it is the replay of a fixed list of
    external calls (which depends on the instance's folders only, never on
    what the world answers), stopping early only when a call raises.  Hence,
    each external call being taken as returning or raising, every method
    produces an outcome after at most as many calls as its script has, and
    no script has more than seven. *)
Theorem methods_are_straight_line_and_terminate (m : Method) (o : Oracle)
    (h : list Action) (s : ConanFile) :
  invoke m o h s = replay (script m s) o h s ∧
  (∃ s' acts r, invoke m o h s = (s', acts, r) ∧ acts `prefix_of` script m s) ∧
  (List.length (actions_of (invoke m o h s)) ≤ List.length (script m s))%nat ∧
  (List.length (script m s) ≤ 7)%nat.
Proof.
  split_and!.
  - apply invoke_script.
  - destruct (invoke m o h s) as [[s' acts] r] eqn:E.
    exists s', acts, r. split; [done|].
    change acts with (actions_of (s', acts, r)). rewrite <-E, invoke_script.
    apply replay_prefix.
  - rewrite invoke_script. apply prefix_length, replay_prefix.
  - destruct m; cbn; lia.
Qed.

(** * Command lines *)

Lemma split_on_nonempty (c : ascii) (s : string) : split_on c s ≠ [].
Proof.
  destruct s as [|d r]; cbn; [done|].
  destruct (decide (d = c)); [done|]. by destruct (split_on c r).
Qed.

Lemma split_on_app (c : ascii) (a b : string) :
  split_on c (a +:+ String c b) = split_on c a ++ split_on c b.
Proof.
  induction a as [|d a IH].
  - change (split_on c (String c b) = [EmptyString] ++ split_on c b).
    cbn. by rewrite decide_True.
  - change (split_on c (String d (a +:+ String c b))
            = split_on c (String d a) ++ split_on c b).
    cbn [split_on]. rewrite IH.
    destruct (decide (d = c)); [done|].
    pose proof (split_on_nonempty c a). by destruct (split_on c a).
Qed.

Lemma words_app (a b : string) :
  words (a +:+ String " " b) = words a ++ words b.
Proof. unfold words. by rewrite split_on_app, filter_app. Qed.

Lemma flag_value_app (flag : string) (xs ys : list string) (v : string) :
  flag_value flag ys = Some v → flag_value flag (xs ++ ys) = Some v.
Proof. intros Hy. induction xs as [|x xs IH]; cbn; [done|]. by rewrite IH. Qed.

Lemma export_command_flags (folder : string) :
  flag_value "--user" (words (export_command folder)) = Some "user" ∧
  flag_value "--channel" (words (export_command folder)) = Some "stable".
Proof.
  unfold export_command.
  change (" --user user --channel stable") with (String " " "--user user --channel stable").
  rewrite <-string_app_assoc, words_app.
  split; by apply flag_value_app.
Qed.

(** * Consistency between the two recipes *)

(** C9: the nested reference agrees with the nested recipe.  When
    [requirements()] returns it has run the export command and required
    [pkcs11provider/1.0@user/stable]; and in every world, for every command
    the method ran and every requirement it declared whose name is the
    [name] of [PKCS11Provider], the requirement is
    [pkcs11provider/1.0@user/stable], its version is the [version] of
    [PKCS11Provider], and its user and channel are the values given to
    [--user] and [--channel] on that command line, namely "user" and
    "stable". *)
Theorem nested_reference_is_consistent (o : Oracle) (h : list Action) (s : ConanFile)
    (cmd cwd r : string) (ref : Reference) :
  Run cmd cwd ∈ actions_of (AosCoreLibCpp.requirements o h s) →
  Requires r ∈ actions_of (AosCoreLibCpp.requirements o h s) →
  parse_reference r = Some ref →
  ref_name ref = PKCS11Provider.name →
  r = "pkcs11provider/1.0@user/stable" ∧
  ref_version ref = PKCS11Provider.version ∧
  ref_user ref = flag_value "--user" (words cmd) ∧
  ref_channel ref = flag_value "--channel" (words cmd) ∧
  ref_user ref = Some "user" ∧
  ref_channel ref = Some "stable".
Proof.
  change (AosCoreLibCpp.requirements o h s) with (invoke Aos_requirements o h s).
  rewrite invoke_script.
  destruct (replay_prefix o (script Aos_requirements s) h s) as [k Hk].
  intros Hrun Hreq Hparse Hname.
  assert (Run cmd cwd ∈ script Aos_requirements s) as Hrun'.
  { rewrite Hk. apply elem_of_app. by left. }
  assert (Requires r ∈ script Aos_requirements s) as Hreq'.
  { rewrite Hk. apply elem_of_app. by left. }
  clear Hrun Hreq Hk k.
  unfold script in Hrun', Hreq'.
  rewrite !elem_of_cons, elem_of_nil in Hrun'.
  rewrite !elem_of_cons, elem_of_nil in Hreq'.
  destruct (export_command_flags (recipe_folder s)) as [Hu Hc].
  destruct_or!; simplify_eq; vm_compute in Hparse; simplify_eq; try discriminate Hname.
  rewrite Hu, Hc. done.
Qed.

Lemma nested_reference_is_consistent_witness :
  let out := AosCoreLibCpp.requirements all_succeed []
               (AosCoreLibCpp.new "/conan" "/conan/src") in
  let cmd := "conan export /conan/pkcs11provider-1.0.py --user user --channel stable" in
  let ref := mkReference "pkcs11provider" "1.0" (Some "user") (Some "stable") in
  (Run cmd "/conan" ∈ actions_of out ∧
   Requires "pkcs11provider/1.0@user/stable" ∈ actions_of out ∧
   parse_reference "pkcs11provider/1.0@user/stable" = Some ref ∧
   ref_name ref = PKCS11Provider.name) ∧
  ref_version ref = PKCS11Provider.version ∧
  ref_user ref = flag_value "--user" (words cmd) ∧
  ref_channel ref = flag_value "--channel" (words cmd).
Proof.
  intros out cmd ref.
  assert (Run cmd "/conan" ∈ actions_of out) as H1.
  { vm_compute. do 5 apply list_elem_of_further. apply list_elem_of_here. }
  assert (Requires "pkcs11provider/1.0@user/stable" ∈ actions_of out) as H2.
  { vm_compute. do 6 apply list_elem_of_further. apply list_elem_of_here. }
  assert (parse_reference "pkcs11provider/1.0@user/stable" = Some ref) as H3
    by reflexivity.
  assert (ref_name ref = PKCS11Provider.name) as H4 by reflexivity.
  destruct (nested_reference_is_consistent all_succeed []
              (AosCoreLibCpp.new "/conan" "/conan/src")
              cmd "/conan" "pkcs11provider/1.0@user/stable" ref H1 H2 H3 H4)
    as (_ & Hv & Hu & Hc & _ & _).
  split_and!; done.
Defined.

(** C10: both recipes are set against the same shared OpenSSL.  In every
    world, a requirement named openssl declared by either [requirements()]
    method is [openssl/3.2.1] (a pinned version); when the method returns,
    [openssl/3.2.1] is among the recipe's requirements; and when either
    [configure()] method returns, the openssl option [shared] is [True]. *)
Theorem recipes_agree_on_openssl (o : Oracle) (h : list Action) (s : ConanFile) :
  (∀ r ref,
     Requires r ∈ actions_of (AosCoreLibCpp.requirements o h s) ∨
     Requires r ∈ actions_of (PKCS11Provider.requirements o h s) →
     parse_reference r = Some ref → ref_name ref = "openssl" →
     r = "openssl/3.2.1") ∧
  pinned "openssl/3.2.1" = true ∧
  (result_of (AosCoreLibCpp.requirements o h s) = inr tt →
   Requires "openssl/3.2.1" ∈ actions_of (AosCoreLibCpp.requirements o h s) ∧
   "openssl/3.2.1" ∈ requires (state_of (AosCoreLibCpp.requirements o h s))) ∧
  (result_of (PKCS11Provider.requirements o h s) = inr tt →
   Requires "openssl/3.2.1" ∈ actions_of (PKCS11Provider.requirements o h s) ∧
   "openssl/3.2.1" ∈ requires (state_of (PKCS11Provider.requirements o h s))) ∧
  (result_of (AosCoreLibCpp.configure o h s) = inr tt →
   options (state_of (AosCoreLibCpp.configure o h s)) !! ("openssl", "shared")
     = Some (PyBool true)) ∧
  (result_of (PKCS11Provider.configure o h s) = inr tt →
   options (state_of (PKCS11Provider.configure o h s)) !! ("openssl", "shared")
     = Some (PyBool true)).
Proof.
  split_and!.
  - intros r ref Hin Hparse Hname.
    assert (Requires r ∈ script Aos_requirements s ∨
            Requires r ∈ script Pkcs_requirements s) as Hin'.
    { destruct Hin as [Hin|Hin]; [left|right].
      - change (AosCoreLibCpp.requirements o h s)
          with (invoke Aos_requirements o h s) in Hin.
        rewrite invoke_script in Hin.
        destruct (replay_prefix o (script Aos_requirements s) h s) as [k ->].
        apply elem_of_app. by left.
      - change (PKCS11Provider.requirements o h s)
          with (invoke Pkcs_requirements o h s) in Hin.
        rewrite invoke_script in Hin.
        destruct (replay_prefix o (script Pkcs_requirements s) h s) as [k ->].
        apply elem_of_app. by left. }
    clear Hin. unfold script in Hin'.
    rewrite !elem_of_cons, !elem_of_nil in Hin'.
    destruct_or!; simplify_eq; try done;
      vm_compute in Hparse; simplify_eq; discriminate Hname.
  - reflexivity.
  - change (AosCoreLibCpp.requirements o h s) with (invoke Aos_requirements o h s).
    rewrite invoke_script. intros Hr.
    apply replay_success in Hr as [-> ->]. cbn. split.
    + do 3 apply list_elem_of_further. apply list_elem_of_here.
    + rewrite !elem_of_app, !list_elem_of_singleton. tauto.
  - change (PKCS11Provider.requirements o h s) with (invoke Pkcs_requirements o h s).
    rewrite invoke_script. intros Hr.
    apply replay_success in Hr as [-> ->]. cbn. split.
    + apply list_elem_of_here.
    + rewrite !elem_of_app, !list_elem_of_singleton. tauto.
  - change (AosCoreLibCpp.configure o h s) with (invoke Aos_configure o h s).
    rewrite invoke_script. intros Hr.
    apply replay_success in Hr as [_ ->]. cbn. apply lookup_insert_eq.
  - change (PKCS11Provider.configure o h s) with (invoke Pkcs_configure o h s).
    rewrite invoke_script. intros Hr.
    apply replay_success in Hr as [_ ->]. cbn. apply lookup_insert_eq.
Qed.

Lemma recipes_agree_on_openssl_witness :
  result_of (AosCoreLibCpp.requirements all_succeed []
               (AosCoreLibCpp.new "/conan" "/conan/src")) = inr tt ∧
  result_of (PKCS11Provider.requirements all_succeed []
               (AosCoreLibCpp.new "/conan" "/conan/src")) = inr tt ∧
  result_of (AosCoreLibCpp.configure all_succeed []
               (AosCoreLibCpp.new "/conan" "/conan/src")) = inr tt ∧
  result_of (PKCS11Provider.configure all_succeed []
               (AosCoreLibCpp.new "/conan" "/conan/src")) = inr tt ∧
  "openssl/3.2.1" ∈ requires (state_of (AosCoreLibCpp.requirements all_succeed []
                                          (AosCoreLibCpp.new "/conan" "/conan/src"))) ∧
  "openssl/3.2.1" ∈ requires (state_of (PKCS11Provider.requirements all_succeed []
                                          (AosCoreLibCpp.new "/conan" "/conan/src"))) ∧
  options (state_of (AosCoreLibCpp.configure all_succeed []
                       (AosCoreLibCpp.new "/conan" "/conan/src")))
    !! ("openssl", "shared") = Some (PyBool true) ∧
  options (state_of (PKCS11Provider.configure all_succeed []
                       (AosCoreLibCpp.new "/conan" "/conan/src")))
    !! ("openssl", "shared") = Some (PyBool true).
Proof.
  pose proof (recipes_agree_on_openssl all_succeed []
                (AosCoreLibCpp.new "/conan" "/conan/src"))
    as (_ & _ & Ha & Hp & Hca & Hcp).
  split_and!; [reflexivity | reflexivity | reflexivity | reflexivity | | | |].
  - exact (proj2 (Ha eq_refl)).
  - exact (proj2 (Hp eq_refl)).
  - exact (Hca eq_refl).
  - exact (Hcp eq_refl).
Defined.

(** * Further properties of the recipes *)

(** ** The methods that build declare nothing *)

(** X2: the methods that lay out, fetch, generate, build and package the
    pkcs11-provider sources declare nothing: in every world, also when a
    call raises half way, the requirement lists, the option table, the
    settings and the generators of the recipe are exactly what they were. *)
Theorem build_phase_declares_nothing (m : Method) (o : Oracle) (h : list Action)
    (s : ConanFile) :
  build_phase m = true →
  requires (state_of (invoke m o h s)) = requires s ∧
  tool_requires (state_of (invoke m o h s)) = tool_requires s ∧
  build_requires (state_of (invoke m o h s)) = build_requires s ∧
  options (state_of (invoke m o h s)) = options s ∧
  settings (state_of (invoke m o h s)) = settings s ∧
  generators (state_of (invoke m o h s)) = generators s.
Proof.
  intros Hm. destruct m; try discriminate Hm; cbn [invoke];
    run_method o; done.
Qed.

Lemma build_phase_declares_nothing_witness :
  build_phase Pkcs_generate = true ∧
  options (state_of (invoke Pkcs_generate
                       (fails_at PkgConfigDepsGenerate (Raised "ConanException" "pc"))
                       [] (PKCS11Provider.new "/conan/p" "/conan/p/src"))) = ∅.
Proof.
  split; [reflexivity|].
  apply (build_phase_declares_nothing Pkcs_generate
           (fails_at PkgConfigDepsGenerate (Raised "ConanException" "pc"))
           [] (PKCS11Provider.new "/conan/p" "/conan/p/src")).
  reflexivity.
Defined.

(** ** [PKCS11Provider.generate] *)

(** X3: [generate()] creates and runs the three generators one after the
    other.  In every world its calls are an initial segment of:
    [VirtualBuildEnv(self)], its [generate()], [PkgConfigDeps(self)], its
    [generate()], [MesonToolchain(self)], its [generate()]; whenever the
    Meson toolchain is generated, the build environment and the pkg-config
    files were generated before it; and all six calls were made when the
    method returns. *)
Theorem generate_runs_three_generators (o : Oracle) (h : list Action) (s : ConanFile) :
  actions_of (PKCS11Provider.generate o h s) `prefix_of`
    [NewVirtualBuildEnv; VirtualBuildEnvGenerate; NewPkgConfigDeps;
     PkgConfigDepsGenerate; NewMesonToolchain; MesonToolchainGenerate] ∧
  (MesonToolchainGenerate ∈ actions_of (PKCS11Provider.generate o h s) →
   o (h ++ [NewVirtualBuildEnv]) VirtualBuildEnvGenerate = None ∧
   o (h ++ [NewVirtualBuildEnv; VirtualBuildEnvGenerate; NewPkgConfigDeps])
     PkgConfigDepsGenerate = None) ∧
  (result_of (PKCS11Provider.generate o h s) = inr tt →
   actions_of (PKCS11Provider.generate o h s) =
     [NewVirtualBuildEnv; VirtualBuildEnvGenerate; NewPkgConfigDeps;
      PkgConfigDepsGenerate; NewMesonToolchain; MesonToolchainGenerate]).
Proof.
  split_and!.
  - change (PKCS11Provider.generate o h s) with (invoke Pkcs_generate o h s).
    rewrite invoke_script. apply (replay_prefix o (script Pkcs_generate s)).
  - run_method o; rewrite ?elem_of_cons, ?elem_of_nil; intros Hin;
      try (exfalso; intuition discriminate);
      rewrite <-?(assoc_L (++)) in *; cbn in *; split; congruence.
  - change (PKCS11Provider.generate o h s) with (invoke Pkcs_generate o h s).
    rewrite invoke_script. intros Hr. by apply replay_success in Hr as [-> _].
Qed.

Lemma generate_runs_three_generators_witness :
  result_of (PKCS11Provider.generate all_succeed []
               (PKCS11Provider.new "/conan/p" "/conan/p/src")) = inr tt ∧
  MesonToolchainGenerate ∈
    actions_of (PKCS11Provider.generate all_succeed []
                  (PKCS11Provider.new "/conan/p" "/conan/p/src")) ∧
  actions_of (PKCS11Provider.generate all_succeed []
                (PKCS11Provider.new "/conan/p" "/conan/p/src")) =
    [NewVirtualBuildEnv; VirtualBuildEnvGenerate; NewPkgConfigDeps;
     PkgConfigDepsGenerate; NewMesonToolchain; MesonToolchainGenerate] ∧
  all_succeed ([] ++ [NewVirtualBuildEnv]) VirtualBuildEnvGenerate = None.
Proof.
  pose proof (generate_runs_three_generators all_succeed []
                (PKCS11Provider.new "/conan/p" "/conan/p/src")) as (_ & Hg & Hs).
  assert (MesonToolchainGenerate ∈
            actions_of (PKCS11Provider.generate all_succeed []
                          (PKCS11Provider.new "/conan/p" "/conan/p/src"))) as Hin.
  { vm_compute. do 5 apply list_elem_of_further. apply list_elem_of_here. }
  split_and!; [reflexivity | exact Hin | exact (Hs eq_refl) | exact (proj1 (Hg Hin))].
Defined.

(** ** What [PKCS11Provider] declares *)

(** X4: the pkcs11provider recipe depends on two packages, both pinned.
    When [requirements()] returns it has added [openssl/3.2.1], and nothing
    else, to the requirements; when [build_requirements()] returns it has
    added [meson/0.64.1], and nothing else, to the build requirements; when
    either raises, the recipe is exactly what it was. *)
Theorem pkcs11provider_declares_openssl_and_meson (o : Oracle) (h : list Action)
    (s : ConanFile) :
  match result_of (PKCS11Provider.requirements o h s) with
  | inr _ =>
      requires (state_of (PKCS11Provider.requirements o h s))
        = requires s ++ ["openssl/3.2.1"] ∧
      tool_requires (state_of (PKCS11Provider.requirements o h s)) = tool_requires s ∧
      build_requires (state_of (PKCS11Provider.requirements o h s)) = build_requires s ∧
      options (state_of (PKCS11Provider.requirements o h s)) = options s
  | inl _ => state_of (PKCS11Provider.requirements o h s) = s
  end ∧
  match result_of (PKCS11Provider.build_requirements o h s) with
  | inr _ =>
      build_requires (state_of (PKCS11Provider.build_requirements o h s))
        = build_requires s ++ ["meson/0.64.1"] ∧
      requires (state_of (PKCS11Provider.build_requirements o h s)) = requires s ∧
      tool_requires (state_of (PKCS11Provider.build_requirements o h s))
        = tool_requires s ∧
      options (state_of (PKCS11Provider.build_requirements o h s)) = options s
  | inl _ => state_of (PKCS11Provider.build_requirements o h s) = s
  end ∧
  pinned "openssl/3.2.1" = true ∧ pinned "meson/0.64.1" = true.
Proof. split_and!; [run_method o; done | run_method o; done | done | done]. Qed.

(** ** [AosCoreLibCpp.requirements] when a call raises *)

(** X5: [requirements()] records its requirements one by one and the nested
    one last.  When the method returns, the requirements of the recipe are
    the old ones followed by grpc/1.54.3, gtest/1.14.0, libcurl/8.8.0,
    openssl/3.2.1, poco/1.13.2, pkcs11provider/1.0@user/stable.  When it
    raises after [k] calls, they are the old ones followed by the first
    [min 5 (k - 1)] of these: never all six, and never the nested one.  In
    particular, when the last call made is a command (the export), the
    method has raised, the five external libraries are recorded and the
    nested recipe is not. *)
Theorem requirements_recorded_until_failure (o : Oracle) (h : list Action)
    (s : ConanFile) :
  requires (state_of (AosCoreLibCpp.requirements o h s))
    = requires s ++
      take (match result_of (AosCoreLibCpp.requirements o h s) with
            | inr _ => 6
            | inl _ =>
                5 `min` (List.length (actions_of (AosCoreLibCpp.requirements o h s)) - 1)
            end)%nat
        ["grpc/1.54.3"; "gtest/1.14.0"; "libcurl/8.8.0"; "openssl/3.2.1";
         "poco/1.13.2"; "pkcs11provider/1.0@user/stable"] ∧
  (is_run <$> last (actions_of (AosCoreLibCpp.requirements o h s)) = Some true →
   result_of (AosCoreLibCpp.requirements o h s) ≠ inr tt ∧
   requires (state_of (AosCoreLibCpp.requirements o h s))
     = requires s ++ ["grpc/1.54.3"; "gtest/1.14.0"; "libcurl/8.8.0";
                      "openssl/3.2.1"; "poco/1.13.2"]).
Proof.
  run_method o; rewrite <-?(assoc_L (++)); cbn;
    (split; [by rewrite ?app_nil_r | intros; split; (done || discriminate)]).
Qed.

Lemma requirements_recorded_until_failure_witness :
  let o := fails_at
             (Run "conan export /conan/pkcs11provider-1.0.py --user user --channel stable"
                "/conan")
             (Raised "ConanException" "export failed") in
  let out := AosCoreLibCpp.requirements o [] (AosCoreLibCpp.new "/conan" "/conan/src") in
  is_run <$> last (actions_of out) = Some true ∧
  requires (state_of out) =
    ["grpc/1.54.3"; "gtest/1.14.0"; "libcurl/8.8.0"; "openssl/3.2.1"; "poco/1.13.2"].
Proof.
  intros o out.
  destruct (requirements_recorded_until_failure o []
              (AosCoreLibCpp.new "/conan" "/conan/src")) as (_ & Hrun).
  assert (is_run <$> last (actions_of out) = Some true) as Hlast by reflexivity.
  split; [exact Hlast | exact (proj2 (Hrun Hlast))].
Defined.

(** ** The two [configure] methods *)



(** X7: configuring twice is configuring once.  If [configure()] is called
    two times in a row and both calls return, the recipe is the one a single
    successful call produces, whatever the option table held before; this
    holds for both recipes. *)
Theorem configure_is_idempotent (o o' : Oracle) (h h' : list Action) (s : ConanFile) :
  (result_of (AosCoreLibCpp.configure o h s) = inr tt →
   result_of ((AosCoreLibCpp.configure;; AosCoreLibCpp.configure) o' h' s) = inr tt →
   state_of ((AosCoreLibCpp.configure;; AosCoreLibCpp.configure) o' h' s)
     = state_of (AosCoreLibCpp.configure o h s)) ∧
  (result_of (PKCS11Provider.configure o h s) = inr tt →
   result_of ((PKCS11Provider.configure;; PKCS11Provider.configure) o' h' s) = inr tt →
   state_of ((PKCS11Provider.configure;; PKCS11Provider.configure) o' h' s)
     = state_of (PKCS11Provider.configure o h s)).
Proof.
  split.
  - run_method o; intros H1; try discriminate H1;
      run_method o'; intros H2; try discriminate H2.
    f_equal. apply map_eq. intros k.
    rewrite !lookup_insert. repeat case_decide; done.
  - run_method o; intros H1; try discriminate H1;
      run_method o'; intros H2; try discriminate H2.
    f_equal. by rewrite insert_insert_eq.
Qed.

Lemma configure_is_idempotent_witness :
  let s := mkConanFile "/conan" "/conan/src" [] []
             {[ ("openssl", "shared") := PyBool false ]} [] [] [] in
  result_of (AosCoreLibCpp.configure all_succeed [] s) = inr tt ∧
  result_of ((AosCoreLibCpp.configure;; AosCoreLibCpp.configure) all_succeed [] s)
    = inr tt ∧
  state_of ((AosCoreLibCpp.configure;; AosCoreLibCpp.configure) all_succeed [] s)
    = state_of (AosCoreLibCpp.configure all_succeed [] s).
Proof.
  intros s.
  destruct (configure_is_idempotent all_succeed all_succeed [] [] s) as [Ha _].
  split_and!; [reflexivity | reflexivity | exact (Ha eq_refl eq_refl)].
Defined.

(** ** The export command line and the recipe folder *)

Lemma has_blank_app (a b : string) :
  has_blank (a +:+ b) = has_blank a || has_blank b.
Proof.
  induction a as [|c a IH]; [done|].
  change (has_blank (String c (a +:+ b)) = has_blank (String c a) || has_blank b).
  cbn [has_blank]. by destruct (decide (c = " "%char)).
Qed.

Lemma split_on_no_blank (s : string) :
  has_blank s = false → split_on " " s = [s].
Proof.
  induction s as [|c s IH]; cbn; [done|].
  destruct (decide (c = " "%char)); [done|]. intros Hs. by rewrite IH.
Qed.

Lemma split_on_fields_no_blank (s w : string) :
  w ∈ split_on " " s → has_blank w = false.
Proof.
  revert w. induction s as [|c s IH]; intros w; cbn.
  - by intros ->%list_elem_of_singleton.
  - destruct (decide (c = " "%char)) as [->|Hc].
    + intros [->|Hw]%elem_of_cons; [done|by apply IH].
    + pose proof (split_on_nonempty " " s) as Hne.
      destruct (split_on " " s) as [|w0 ws]; [done|].
      intros [->|Hw]%elem_of_cons.
      * cbn. rewrite decide_False by done. apply IH, list_elem_of_here.
      * by apply IH, list_elem_of_further.
Qed.

Lemma words_no_blank (s : string) :
  has_blank s = false → s ≠ EmptyString → words s = [s].
Proof.
  intros Hs Hne. unfold words. rewrite (split_on_no_blank _ Hs).
  by rewrite filter_cons_True, filter_nil.
Qed.

Lemma words_have_no_blank (s w : string) : w ∈ words s → has_blank w = false.
Proof.
  unfold words. intros [_ Hw]%list_elem_of_filter. by eapply split_on_fields_no_blank.
Qed.

Lemma export_path_blank (folder : string) :
  has_blank (os_path_join folder "pkcs11provider-1.0.py") = has_blank folder.
Proof.
  unfold os_path_join.
  change (startswith_sep "pkcs11provider-1.0.py") with false. cbv iota.
  destruct (bool_decide (folder = EmptyString) || endswith_sep folder);
    rewrite !has_blank_app; cbn; by rewrite ?orb_false_r.
Qed.

Lemma export_path_nonempty (folder : string) :
  os_path_join folder "pkcs11provider-1.0.py" ≠ EmptyString.
Proof.
  unfold os_path_join.
  change (startswith_sep "pkcs11provider-1.0.py") with false. cbv iota.
  destruct (bool_decide (folder = EmptyString) || endswith_sep folder);
    by destruct folder.
Qed.

Lemma export_command_run (o : Oracle) (h : list Action) (s : ConanFile)
    (cmd cwd : string) :
  Run cmd cwd ∈ actions_of (AosCoreLibCpp.requirements o h s) →
  cmd = export_command (recipe_folder s) ∧ cwd = recipe_folder s.
Proof.
  change (AosCoreLibCpp.requirements o h s) with (invoke Aos_requirements o h s).
  rewrite invoke_script.
  destruct (replay_prefix o (script Aos_requirements s) h s) as [k Hk].
  intros Hrun.
  assert (Run cmd cwd ∈ script Aos_requirements s) as Hrun'.
  { rewrite Hk. apply elem_of_app. by left. }
  unfold script in Hrun'. rewrite !elem_of_cons, elem_of_nil in Hrun'.
  destruct_or!; simplify_eq. done.
Qed.

(** X9: the path of the nested recipe is put on the command line unquoted.
    For every command [requirements()] runs, in every world: its working
    directory is the recipe folder; when the recipe folder contains no
    blank, the command line has exactly the seven words [conan], [export],
    the path [os.path.join(recipe_folder, "pkcs11provider-1.0.py")],
    [--user], [user], [--channel], [stable]; when the recipe folder contains
    a blank, that path is not a word of the command line. *)
Theorem export_command_words (o : Oracle) (h : list Action) (s : ConanFile)
    (cmd cwd : string) :
  Run cmd cwd ∈ actions_of (AosCoreLibCpp.requirements o h s) →
  cwd = recipe_folder s ∧
  (has_blank (recipe_folder s) = false →
   words cmd = ["conan"; "export";
                os_path_join (recipe_folder s) "pkcs11provider-1.0.py";
                "--user"; "user"; "--channel"; "stable"]) ∧
  (has_blank (recipe_folder s) = true →
   os_path_join (recipe_folder s) "pkcs11provider-1.0.py" ∉ words cmd).
Proof.
  intros [-> ->]%export_command_run. split_and!; [done| |].
  - intros Hb. unfold export_command.
    change ("conan export " +:+
            os_path_join (recipe_folder s) "pkcs11provider-1.0.py" +:+
            " --user user --channel stable")
      with ("conan export" +:+
            String " " (os_path_join (recipe_folder s) "pkcs11provider-1.0.py" +:+
                        String " " "--user user --channel stable")).
    rewrite words_app, words_app.
    rewrite (words_no_blank (os_path_join _ _));
      [done | by rewrite export_path_blank | apply export_path_nonempty].
  - intros Hb Hin. apply words_have_no_blank in Hin.
    rewrite export_path_blank in Hin. congruence.
Qed.

Lemma export_command_words_witness :
  let out := AosCoreLibCpp.requirements all_succeed []
               (AosCoreLibCpp.new "/opt/my recipes" "/opt/src") in
  let cmd := "conan export /opt/my recipes/pkcs11provider-1.0.py --user user --channel stable" in
  Run cmd "/opt/my recipes" ∈ actions_of out ∧
  has_blank "/opt/my recipes" = true ∧
  ("/opt/my recipes/pkcs11provider-1.0.py" ∉ words cmd) ∧
  words cmd = ["conan"; "export"; "/opt/my"; "recipes/pkcs11provider-1.0.py";
               "--user"; "user"; "--channel"; "stable"].
Proof.
  intros out cmd.
  assert (Run cmd "/opt/my recipes" ∈ actions_of out) as Hin.
  { vm_compute. do 5 apply list_elem_of_further. apply list_elem_of_here. }
  destruct (export_command_words all_succeed []
              (AosCoreLibCpp.new "/opt/my recipes" "/opt/src") cmd "/opt/my recipes" Hin)
    as (_ & _ & Hblank).
  split_and!; [exact Hin | reflexivity | exact (Hblank eq_refl) | reflexivity].
Defined.

Lemma string_prefix_app (a b : string) : String.prefix a (a +:+ b) = true.
Proof.
  induction a as [|c a IH]; [by destruct b|].
  change (String.prefix (String c a) (String c (a +:+ b)) = true).
  cbn [String.prefix]. destruct (ascii_dec c c); [exact IH | done].
Qed.

Lemma endswith_sep_app_sep (a : string) : endswith_sep (a +:+ "/") = true.
Proof.
  induction a as [|c a IH]; [reflexivity|].
  change (endswith_sep (String c (a +:+ "/")) = true).
  cbn [endswith_sep]. rewrite IH. by destruct a.
Qed.

(** X10: the nested recipe is always looked up inside the recipe folder.
    For every recipe folder, empty or ending in slashes included,
    [os.path.join(recipe_folder, "pkcs11provider-1.0.py")] starts with the
    recipe folder: it is the folder directly followed by the file name when
    the folder is empty or ends with a slash, and the folder, a slash and
    the file name otherwise.  Every command [requirements()] runs, in every
    world, starts with [conan export <recipe_folder>].  For a non-empty
    recipe folder that does not end with a slash, adding a trailing slash
    changes nothing: two instances whose recipe folders differ by it only
    run the same command text. *)
Theorem export_path_inside_recipe_folder :
  (∀ folder : string,
     String.prefix folder (os_path_join folder "pkcs11provider-1.0.py") = true ∧
     os_path_join folder "pkcs11provider-1.0.py" =
       if bool_decide (folder = EmptyString) || endswith_sep folder
       then folder +:+ "pkcs11provider-1.0.py"
       else folder +:+ "/pkcs11provider-1.0.py") ∧
  (∀ (o : Oracle) (h : list Action) (s : ConanFile) (cmd cwd : string),
     Run cmd cwd ∈ actions_of (AosCoreLibCpp.requirements o h s) →
     String.prefix ("conan export " +:+ recipe_folder s) cmd = true) ∧
  (∀ (o o' : Oracle) (h h' : list Action) (s s' : ConanFile)
     (cmd cwd cmd' cwd' : string),
     recipe_folder s ≠ EmptyString →
     endswith_sep (recipe_folder s) = false →
     recipe_folder s' = recipe_folder s +:+ "/" →
     Run cmd cwd ∈ actions_of (AosCoreLibCpp.requirements o h s) →
     Run cmd' cwd' ∈ actions_of (AosCoreLibCpp.requirements o' h' s') →
     cmd' = cmd).
Proof.
  assert (∀ folder : string,
            ∃ rest, os_path_join folder "pkcs11provider-1.0.py" = folder +:+ rest)
    as Hjoin.
  { intros folder. unfold os_path_join.
    change (startswith_sep "pkcs11provider-1.0.py") with false. cbv iota.
    destruct (bool_decide (folder = EmptyString) || endswith_sep folder);
      eexists; reflexivity. }
  split_and!.
  - intros folder. split.
    + destruct (Hjoin folder) as [rest ->]. apply string_prefix_app.
    + unfold os_path_join.
      change (startswith_sep "pkcs11provider-1.0.py") with false. cbv iota.
      by destruct (bool_decide (folder = EmptyString) || endswith_sep folder).
  - intros o h s cmd cwd [-> ->]%export_command_run.
    unfold export_command. destruct (Hjoin (recipe_folder s)) as [rest ->].
    rewrite string_app_assoc, <-(string_app_assoc "conan export ").
    apply string_prefix_app.
  - intros o o' h h' s s' cmd cwd cmd' cwd' Hne Hend Hs'
      [-> ->]%export_command_run [-> ->]%export_command_run.
    rewrite Hs'. unfold export_command, os_path_join.
    change (startswith_sep "pkcs11provider-1.0.py") with false. cbv iota.
    rewrite endswith_sep_app_sep, orb_true_r, Hend, orb_false_r.
    rewrite bool_decide_eq_false_2 by done.
    rewrite !string_app_assoc. reflexivity.
Qed.

Lemma export_path_inside_recipe_folder_witness :
  let s := AosCoreLibCpp.new "/conan" "/conan/src" in
  let s' := AosCoreLibCpp.new "/conan/" "/conan/src" in
  let cmd := "conan export /conan/pkcs11provider-1.0.py --user user --channel stable" in
  (recipe_folder s ≠ EmptyString ∧ endswith_sep (recipe_folder s) = false ∧
   recipe_folder s' = recipe_folder s +:+ "/" ∧
   Run cmd "/conan" ∈ actions_of (AosCoreLibCpp.requirements all_succeed [] s) ∧
   Run cmd "/conan/" ∈ actions_of (AosCoreLibCpp.requirements all_succeed [] s')) ∧
  cmd = cmd ∧
  String.prefix ("conan export " +:+ "/conan/") cmd = true.
Proof.
  intros s s' cmd.
  assert (recipe_folder s ≠ EmptyString) as H1 by discriminate.
  assert (endswith_sep (recipe_folder s) = false) as H2 by reflexivity.
  assert (recipe_folder s' = recipe_folder s +:+ "/") as H3 by reflexivity.
  assert (Run cmd "/conan" ∈ actions_of (AosCoreLibCpp.requirements all_succeed [] s))
    as H4.
  { vm_compute. do 5 apply list_elem_of_further. apply list_elem_of_here. }
  assert (Run cmd "/conan/" ∈ actions_of (AosCoreLibCpp.requirements all_succeed [] s'))
    as H5.
  { vm_compute. do 5 apply list_elem_of_further. apply list_elem_of_here. }
  destruct export_path_inside_recipe_folder as (_ & Hcmd & Hslash).
  split_and!; [exact H1 | exact H2 | exact H3 | exact H4 | exact H5 | |].
  - exact (Hslash all_succeed all_succeed [] [] s s' cmd "/conan" cmd "/conan/"
             H1 H2 H3 H4 H5).
  - exact (Hcmd all_succeed [] s' cmd "/conan/" H5).
Defined.
